(** * appregistry-server: source-flag resolution and server bootstrap

    A shallow embedding of [cmd/appregistry-server/main.go]: the functions
    [handleSourceFlag], [runCmdFunc] and [main], over a small model of the
    libraries they call (pflag's typed flag getters, logrus' levels, hooks
    and fatal/panic exits, the appregistry loader, [net.Listen] and the gRPC
    server).  Every call the program makes on them is recorded as an event,
    so that the order in which the bootstrap does things can be stated and
    proved. *)

From stdpp Require Import base strings gmap list sorting.

Open Scope string_scope.
Open Scope list_scope.

(** A Go [error] is modelled by its message; [None] is the [nil] error. *)
Definition error := string.

(** ** pflag: typed flag values and getters *)

Module pflag.

(** The three flag types the command defines. *)
Inductive Value :=
| boolValue (b : bool)
| stringValue (s : string)
| stringSliceValue (l : list string).

Definition Type_ (v : Value) : string :=
  match v with
  | boolValue _ => "bool"
  | stringValue _ => "string"
  | stringSliceValue _ => "stringSlice"
  end.

Definition notDefined (name : string) : error :=
  "flag accessed but not defined: " +:+ name.

Definition wrongType (ftype : string) (v : Value) : error :=
  "trying to get " +:+ ftype +:+ " value of flag of type " +:+ Type_ v.

(** [FlagSet.GetString]: the value of a defined string flag; otherwise the
    zero value and an error. *)
Definition GetString (f : gmap string Value) (name : string)
  : string * option error :=
  match f !! name with
  | None => ("", Some (notDefined name))
  | Some (stringValue s) => (s, None)
  | Some v => ("", Some (wrongType "string" v))
  end.

(** [FlagSet.GetStringSlice].  A nil slice and an empty slice are both the
    empty list: the program only takes [len] of them and passes them on. *)
Definition GetStringSlice (f : gmap string Value) (name : string)
  : list string * option error :=
  match f !! name with
  | None => ([], Some (notDefined name))
  | Some (stringSliceValue l) => (l, None)
  | Some v => ([], Some (wrongType "stringSlice" v))
  end.

(** [FlagSet.GetBool]. *)
Definition GetBool (f : gmap string Value) (name : string)
  : bool * option error :=
  match f !! name with
  | None => (false, Some (notDefined name))
  | Some (boolValue b) => (b, None)
  | Some v => (false, Some (wrongType "bool" v))
  end.

(** [FlagSet.Set], on a value that the flag's own parser has already
    produced: an unknown flag and a value the flag's type rejects are
    errors, and leave the set as it was. *)
Definition Set_ (f : gmap string Value) (name : string) (v : Value)
  : gmap string Value * option error :=
  match f !! name with
  | None => (f, Some ("no such flag -" +:+ name))
  | Some old =>
      if decide (Type_ old = Type_ v) then (<[name := v]> f, None)
      else (f, Some ("invalid argument for flag " +:+ name))
  end.

(** Parsing the command line: the settings are applied from left to right
    and the first rejected one stops the parse. *)
Fixpoint Parse (f : gmap string Value) (settings : list (string * Value))
  : gmap string Value * option error :=
  match settings with
  | [] => (f, None)
  | (name, v) :: rest =>
      match Set_ f name v with
      | (f', None) => Parse f' rest
      | (f', Some e) => (f', Some e)
      end
  end.

End pflag.

(** ** logrus: levels and writer hooks *)

Module logrus.

Inductive Level :=
| PanicLevel | FatalLevel | ErrorLevel | WarnLevel
| InfoLevel | DebugLevel | TraceLevel.

Global Instance Level_eq_dec : EqDecision Level.
Proof. solve_decision. Defined.

Definition severity (l : Level) : nat :=
  match l with
  | PanicLevel => 0 | FatalLevel => 1 | ErrorLevel => 2 | WarnLevel => 3
  | InfoLevel => 4 | DebugLevel => 5 | TraceLevel => 6
  end.

(** A writer hook: entries of the listed levels are written to the file. *)
Record Hook := { Writer : string; LogLevels : list Level }.

(** The standard logger, as far as the program configures it. *)
Record Logger := { level : Level; hooks : list Hook }.

Definition std : Logger := {| level := InfoLevel; hooks := [] |}.

Definition IsLevelEnabled (lg : Logger) (l : Level) : bool :=
  bool_decide (severity l <= severity (level lg)).

Definition SetLevel (l : Level) (lg : Logger) : Logger :=
  {| level := l; hooks := hooks lg |}.

Definition AddHook (h : Hook) (lg : Logger) : Logger :=
  {| level := level lg; hooks := hooks lg ++ [h] |}.

(** The files the hooks of [lg] write an entry of level [l] to. *)
Definition fired (lg : Logger) (l : Level) : list string :=
  Writer <$> filter (fun h => l ∈ LogLevels h) (hooks lg).

End logrus.

Import logrus.

(** ** The collaborators and the events of a run *)

(** The populated store a successful load hands back: an opaque handle. *)
Inductive Store := store (id : nat).

(** [appregistry.NewLoader] keeps the credentials context and the mode. *)
Record Loader := { kubeconfig_of : string; legacy_of : bool }.

(** What [Serve] does on a bound listener: it keeps serving, or it returns. *)
Inductive ServeOutcome := Blocks | Returns (err : option error).

(** The outcomes of the calls that leave the program.  They are not decided
    by [main.go]; every theorem below holds for all of them. *)
Record World := {
  openLog : string -> option error;
  alsoLogged : list Level;
  newLoader : string -> bool -> option error;
  load : Loader -> string -> list string -> string -> Store * option error;
  listen : string -> string -> option error;
  serve : string -> ServeOutcome
}.

(** One event for each call the program makes, with the arguments it passes
    and, for the fallible ones, the result it gets.  A log entry carries the
    files its line was written to by the hooks. *)
Inductive Event :=
| EvGetFlag (name : string)
| EvAddHooks (path : string) (err : option error)
| EvNewLoader (kubeconfig : string) (legacy : bool) (err : option error)
| EvLoad (dbName : string) (sources : list string) (packages : string)
         (err : option error)
| EvListen (network address : string) (err : option error)
| EvNewServer
| EvRegisterRegistryServer (st : Store)
| EvRegisterHealthServer
| EvReflectionRegister
| EvServe (address : string)
| EvLog (l : Level) (msg : string) (written : list string).

(** How the process ends, when it does not simply return. *)
Inductive Termination :=
| Exit (code : Z)
| Panicked (msg : string)
| ServingForever.

Inductive Res (A : Type) :=
| Val (a : A)
| Stop (t : Termination).
Arguments Val {A} a.
Arguments Stop {A} t.

(** A computation reads and updates the logger, emits events in order, and
    either yields a value or ends the process. *)
Definition M (A : Type) : Type := Logger -> Res A * Logger * list Event.

Global Instance M_ret : MRet M := fun A a lg => (Val a, lg, []).

Global Instance M_bind : MBind M := fun A B f m lg =>
  match m lg with
  | (Val a, lg1, t1) =>
      match f a lg1 with
      | (r, lg2, t2) => (r, lg2, t1 ++ t2)
      end
  | (Stop t, lg1, t1) => (Stop t, lg1, t1)
  end.

Definition emit (e : Event) : M unit := fun lg => (Val tt, lg, [e]).

Definition halt {A} (t : Termination) : M A := fun lg => (Stop t, lg, []).

Definition configure (f : Logger -> Logger) : M unit :=
  fun lg => (Val tt, f lg, []).

(** Projections of a finished run. *)
Definition result {A} (r : Res A * Logger * list Event) : Res A := r.1.1.
Definition logger {A} (r : Res A * Logger * list Event) : Logger := r.1.2.
Definition trace {A} (r : Res A * Logger * list Event) : list Event := r.2.


(** *** Logging *)

(** An enabled entry fires the hooks registered for its level. *)
Definition log (l : Level) (msg : string) : M unit := fun lg =>
  if IsLevelEnabled lg l
  then (Val tt, lg, [EvLog l msg (fired lg l)])
  else (Val tt, lg, []).

Definition Info (msg : string) : M unit := log InfoLevel msg.

(** [Fatalf] logs and calls [os.Exit(1)]. *)
Definition Fatalf {A} (msg : string) : M A :=
  log FatalLevel msg;; halt (Exit 1).

(** [logrus.Panic] logs and panics. *)
Definition Panic {A} (msg : string) : M A :=
  log PanicLevel msg;; halt (Panicked msg).

(** Modelled from the spec: [log.AddDefaultWriterHooks] of [pkg/lib/log],
    which is not among the sources.  The termination log is the file
    "written with the final fatal error before exit": when the file can be
    set up, a hook sends the fatal entries to it; which further levels the
    hook covers is left to the world.  When it cannot, the error is returned
    and no hook is added. *)
Definition AddDefaultWriterHooks (w : World) (terminationLogPath : string)
  : M (option error) :=
  let err := openLog w terminationLogPath in
  emit (EvAddHooks terminationLogPath err);;
  match err with
  | Some e => mret (Some e)
  | None =>
      configure (AddHook {| Writer := terminationLogPath;
                            LogLevels := FatalLevel :: alsoLogged w |});;
      mret None
  end.

(** *** The command and its flag getters *)

Record Command := { Flags : gmap string pflag.Value }.

Definition GetString (cmd : Command) (name : string)
  : M (string * option error) :=
  emit (EvGetFlag name);; mret (pflag.GetString (Flags cmd) name).

Definition GetStringSlice (cmd : Command) (name : string)
  : M (list string * option error) :=
  emit (EvGetFlag name);; mret (pflag.GetStringSlice (Flags cmd) name).

Definition GetBool (cmd : Command) (name : string)
  : M (bool * option error) :=
  emit (EvGetFlag name);; mret (pflag.GetBool (Flags cmd) name).

(** *** The loader, the listener and the server *)

Definition NewLoader (w : World) (kubeconfig : string) (legacy : bool)
  : M (Loader * option error) :=
  let err := newLoader w kubeconfig legacy in
  emit (EvNewLoader kubeconfig legacy err);;
  mret ({| kubeconfig_of := kubeconfig; legacy_of := legacy |}, err).

Definition Load (w : World) (loader : Loader) (dbName : string)
    (sources : list string) (packages : string) : M (Store * option error) :=
  let r := load w loader dbName sources packages in
  emit (EvLoad dbName sources packages r.2);;
  mret r.

Definition Listen (w : World) (network address : string)
  : M (string * option error) :=
  let err := listen w network address in
  emit (EvListen network address err);;
  mret (address, err).

Definition Serve (w : World) (lis : string) : M (option error) :=
  emit (EvServe lis);;
  match serve w lis with
  | Blocks => halt ServingForever
  | Returns err => mret err
  end.

(** ** The program *)

(** [handleSourceFlag]: the named results start as [nil], [false], [nil];
    a bare [return] hands back their current values. *)
Definition handleSourceFlag (cmd : Command)
  : M (list string * bool * option error) :=
  '(operatorSourceCRNames, err) ← GetStringSlice cmd "sources";
  match err with
  | Some _ => mret ([], false, err)
  | None =>
      if bool_decide (0 < length operatorSourceCRNames)
      then mret (operatorSourceCRNames, true, err)
      else
        '(remoteSources, err) ← GetStringSlice cmd "registry";
        match err with
        | Some _ => mret ([], false, err)
        | None => mret (remoteSources, false, err)
        end
  end.

(** [runCmdFunc]. *)
Definition runCmdFunc (w : World) (cmd : Command) : M (option error) :=
  '(terminationLogPath, err) ← GetString cmd "termination-log";
  if err is Some _ then mret err else
  err ← AddDefaultWriterHooks w terminationLogPath;
  if err is Some _ then mret err else
  '(kubeconfig, err) ← GetString cmd "kubeconfig";
  if err is Some _ then mret err else
  '(port, err) ← GetString cmd "port";
  if err is Some _ then mret err else
  '(sources, legacy, err) ← handleSourceFlag cmd;
  if err is Some _ then mret err else
  '(packages, err) ← GetString cmd "packages";
  if err is Some _ then mret err else
  '(dbName, err) ← GetString cmd "database";
  if err is Some _ then mret err else
  '(loader, err) ← NewLoader w kubeconfig legacy;
  (if err is Some e then Fatalf ("error initializing - " +:+ e)
   else mret tt);;
  '(st, err) ← Load w loader dbName sources packages;
  (if err is Some e
   then Fatalf ("error loading manifest from remote registry - " +:+ e)
   else mret tt);;
  '(lis, err) ← Listen w "tcp" (":" +:+ port);
  (if err is Some e then Fatalf ("failed to listen: " +:+ e) else mret tt);;
  emit EvNewServer;;
  emit (EvRegisterRegistryServer st);;
  emit EvRegisterHealthServer;;
  emit EvReflectionRegister;;
  Info "serving registry";;
  err ← Serve w lis;
  (if err is Some e then Fatalf ("failed to serve: " +:+ e) else mret tt);;
  mret None.

(** The flags [main] defines, with their defaults. *)
Definition flagDefinitions : gmap string pflag.Value :=
  <["termination-log" := pflag.stringValue "/dev/termination-log"]>
  (<["port" := pflag.stringValue "50051"]>
  (<["packages" := pflag.stringValue ""]>
  (<["registry" := pflag.stringSliceValue []]>
  (<["sources" := pflag.stringSliceValue []]>
  (<["database" := pflag.stringValue "bundles.db"]>
  (<["kubeconfig" := pflag.stringValue ""]>
  (<["debug" := pflag.boolValue false]> ∅))))))).

(** [PreRunE] of the root command. *)
Definition PreRunE (cmd : Command) : M (option error) :=
  '(debug, _) ← GetBool cmd "debug";
  (if debug : bool then configure (SetLevel DebugLevel) else mret tt);;
  mret None.

(** [FlagSet.MarkHidden] fails only for a flag that does not exist. *)
Definition MarkHidden (f : gmap string pflag.Value) (name : string)
  : option error :=
  match f !! name with
  | Some _ => None
  | None => Some ("flag does not exist: " +:+ name)
  end.

(** [Command.Execute]: parse the arguments, then [PreRunE], then [RunE]; the
    first error is returned. *)
Definition Execute (w : World) (defs : gmap string pflag.Value)
    (args : list (string * pflag.Value)) : M (option error) :=
  match pflag.Parse defs args with
  | (_, Some e) => mret (Some e)
  | (flags, None) =>
      let cmd := {| Flags := flags |} in
      err ← PreRunE cmd;
      if err is Some _ then mret err else runCmdFunc w cmd
  end.

(** [main]. *)
Definition main (w : World) (args : list (string * pflag.Value)) : M unit :=
  (if MarkHidden flagDefinitions "debug" is Some e then Panic e
   else mret tt);;
  err ← Execute w flagDefinitions args;
  (if err is Some e then Panic e else mret tt).

(** ** Vocabulary of the properties *)

(** *** Flags *)

(** Flag [name] is defined with the type called [ty]. *)
Definition defined_as (f : gmap string pflag.Value) (name ty : string) : Prop :=
  exists v, f !! name = Some v /\ pflag.Type_ v = ty.

(** *** Events *)

Definition is_flag_read (e : Event) : bool :=
  match e with EvGetFlag _ => true | _ => false end.

Definition reads (flag : string) (e : Event) : bool :=
  match e with EvGetFlag name => String.eqb name flag | _ => false end.




Definition load_succeeded (e : Event) : bool :=
  match e with EvLoad _ _ _ None => true | _ => false end.

Definition loader_failed (e : Event) : bool :=
  match e with
  | EvNewLoader _ _ (Some _) | EvLoad _ _ _ (Some _) => true
  | _ => false
  end.


Definition hooks_failed (e : Event) : bool :=
  match e with EvAddHooks _ (Some _) => true | _ => false end.


(** The calls made on the gRPC server. *)
Definition on_server (e : Event) : bool :=
  match e with
  | EvNewServer | EvRegisterRegistryServer _ | EvRegisterHealthServer
  | EvReflectionRegister | EvServe _ => true
  | _ => false
  end.


(** Events through which the outside can reach the server: the bind of the
    listener and everything done with the server. *)
Definition exposes (e : Event) : bool :=
  match e with EvListen _ _ _ => true | _ => on_server e end.




(** *** Order in a trace *)

(** [before p q t]: in the trace [t], every event that satisfies [q] comes
    after some event that satisfies [p]. *)
Definition before (p q : Event -> bool) (t : list Event) : Prop :=
  forall pre e post, t = pre ++ e :: post -> q e = true ->
    existsb p pre = true.

(** The same, computed along the trace; [seen] tells whether an event that
    satisfies [p] has gone by. *)
Fixpoint preceded (p q : Event -> bool) (seen : bool) (t : list Event)
  : bool :=
  match t with
  | [] => true
  | e :: t' => (if q e then seen else true) && preceded p q (seen || p e) t'
  end.

(** *** The stages of the bootstrap *)





(** *** Further vocabulary *)

Definition is_AddHooks (e : Event) : bool :=
  match e with EvAddHooks _ _ => true | _ => false end.

(** The steps of [runCmdFunc] that come before the loader is constructed. *)
Definition setup_step (e : Event) : bool :=
  is_flag_read e || is_AddHooks e.

Definition hooks_installed (e : Event) : bool :=
  match e with EvAddHooks _ None => true | _ => false end.

(** A read of any flag but [termination-log]. *)
Definition read_after_setup (e : Event) : bool :=
  is_flag_read e && negb (reads "termination-log" e).


(** The flags that [runCmdFunc] and the resolver read. *)
Definition used_flags : list string :=
  ["termination-log"; "kubeconfig"; "port"; "sources"; "registry";
   "packages"; "database"].

(** *** Commands for the examples *)

(** The command as [main] defines it, with no argument given. *)
Definition bare : Command := {| Flags := flagDefinitions |}.

(** A command on which the [port] flag is not defined. *)
Definition portless : Command := {| Flags := delete "port" flagDefinitions |}.


(** *** Worlds for the examples *)

(** Every collaborator succeeds and the server keeps serving. *)
Definition fair_weather : World := {|
  openLog := fun _ => None;
  alsoLogged := [];
  newLoader := fun _ _ => None;
  load := fun _ _ _ _ => (store 0, None);
  listen := fun _ _ => None;
  serve := fun _ => Blocks
|}.

(** The load call fails. *)
Definition failing_load : World := {|
  openLog := fun _ => None;
  alsoLogged := [];
  newLoader := fun _ _ => None;
  load := fun _ _ _ _ => (store 0, Some "network unreachable");
  listen := fun _ _ => None;
  serve := fun _ => Blocks
|}.


(** * Properties *)

Arguments String.append : simpl never.

(** ** The flag getters *)


Lemma GetStringSlice_same f1 f2 name :
  f1 !! name = f2 !! name ->
  pflag.GetStringSlice f1 name = pflag.GetStringSlice f2 name.
Proof. intros H. unfold pflag.GetStringSlice. by rewrite H. Qed.

(** Setting a flag keeps every flag defined, with its type. *)
Lemma Set_defined_as f name v f' e n ty :
  pflag.Set_ f name v = (f', e) -> defined_as f n ty -> defined_as f' n ty.
Proof.
  unfold pflag.Set_. intros H (u & Hu & Hty).
  destruct (f !! name) as [old|] eqn:Hold; [|by simplify_eq; exists u].
  destruct (decide (pflag.Type_ old = pflag.Type_ v)) as [Heq|];
    [|by simplify_eq; exists u].
  simplify_eq. destruct (decide (name = n)) as [->|Hne].
  - exists v. rewrite lookup_insert_eq. split; [done|]. congruence.
  - exists u. by rewrite lookup_insert_ne.
Qed.

Lemma Parse_defined_as args : forall f f' e n ty,
  pflag.Parse f args = (f', e) -> defined_as f n ty -> defined_as f' n ty.
Proof.
  induction args as [|[name v] args IH]; simpl; intros f f' e n ty H Hd.
  - by simplify_eq.
  - destruct (pflag.Set_ f name v) as [f1 [e1|]] eqn:HS.
    + simplify_eq. by eapply Set_defined_as.
    + eapply IH; [done|]. by eapply Set_defined_as.
Qed.

Lemma defined_stringSlice f name :
  defined_as f name "stringSlice" ->
  exists l, pflag.GetStringSlice f name = (l, None).
Proof.
  intros (v & Hv & Hty). unfold pflag.GetStringSlice. rewrite Hv.
  destruct v; try discriminate. by eexists.
Qed.

Lemma defined_string f name :
  defined_as f name "string" ->
  exists s, pflag.GetString f name = (s, None).
Proof.
  intros (v & Hv & Hty). unfold pflag.GetString. rewrite Hv.
  destruct v; try discriminate. by eexists.
Qed.

(** On the flags of [main], however the command line sets them, the reads
    of the program find their flag, with the type they ask for. *)
Lemma parsed_string args g e name d :
  flagDefinitions !! name = Some (pflag.stringValue d) ->
  pflag.Parse flagDefinitions args = (g, e) ->
  exists s, pflag.GetString g name = (s, None).
Proof.
  intros Hd Hp. apply defined_string.
  eapply Parse_defined_as; [done|]. by eexists.
Qed.

Lemma parsed_stringSlice args g e name d :
  flagDefinitions !! name = Some (pflag.stringSliceValue d) ->
  pflag.Parse flagDefinitions args = (g, e) ->
  exists l, pflag.GetStringSlice g name = (l, None).
Proof.
  intros Hd Hp. apply defined_stringSlice.
  eapply Parse_defined_as; [done|]. by eexists.
Qed.

(** ** The source resolver *)

(** The three ways through [handleSourceFlag]. *)

Lemma handleSourceFlag_sources_err cmd lg l e :
  pflag.GetStringSlice (Flags cmd) "sources" = (l, Some e) ->
  handleSourceFlag cmd lg = (Val ([], false, Some e), lg, [EvGetFlag "sources"]).
Proof.
  intros H.
  unfold handleSourceFlag, GetStringSlice, mbind, M_bind, emit, mret, M_ret.
  by rewrite H.
Qed.

Lemma handleSourceFlag_sources_nonempty cmd lg l :
  pflag.GetStringSlice (Flags cmd) "sources" = (l, None) ->
  l <> [] ->
  handleSourceFlag cmd lg = (Val (l, true, None), lg, [EvGetFlag "sources"]).
Proof.
  intros H Hl.
  unfold handleSourceFlag, GetStringSlice, mbind, M_bind, emit, mret, M_ret.
  rewrite H. by destruct l.
Qed.

Lemma handleSourceFlag_sources_empty cmd lg m e :
  pflag.GetStringSlice (Flags cmd) "sources" = ([], None) ->
  pflag.GetStringSlice (Flags cmd) "registry" = (m, e) ->
  handleSourceFlag cmd lg =
    (Val (if e is Some _ then [] else m, false, e), lg,
     [EvGetFlag "sources"; EvGetFlag "registry"]).
Proof.
  intros H1 H2.
  unfold handleSourceFlag, GetStringSlice, mbind, M_bind, emit, mret, M_ret.
  rewrite H1. simpl. rewrite H2. by destruct e.
Qed.

Lemma handleSourceFlag_cases cmd lg :
  (exists l e, pflag.GetStringSlice (Flags cmd) "sources" = (l, Some e) /\
     handleSourceFlag cmd lg =
       (Val ([], false, Some e), lg, [EvGetFlag "sources"]))
  \/ (exists l, pflag.GetStringSlice (Flags cmd) "sources" = (l, None) /\
        l <> [] /\
        handleSourceFlag cmd lg =
          (Val (l, true, None), lg, [EvGetFlag "sources"]))
  \/ (exists m e, pflag.GetStringSlice (Flags cmd) "sources" = ([], None) /\
        pflag.GetStringSlice (Flags cmd) "registry" = (m, e) /\
        handleSourceFlag cmd lg =
          (Val (if e is Some _ then [] else m, false, e), lg,
           [EvGetFlag "sources"; EvGetFlag "registry"])).
Proof.
  destruct (pflag.GetStringSlice (Flags cmd) "sources") as [l [e|]] eqn:Hs.
  - left. exists l, e. split; [done|]. by eapply handleSourceFlag_sources_err.
  - destruct l as [|x l].
    + right; right.
      destruct (pflag.GetStringSlice (Flags cmd) "registry") as [m e] eqn:Hr.
      exists m, e. repeat split. by apply handleSourceFlag_sources_empty.
    + right; left. exists (x :: l). repeat split; [done|].
      by apply handleSourceFlag_sources_nonempty.
Qed.





(** The second scenario of the specification: only [-r url|q|sec]. *)
Example handleSourceFlag_registry_only :
  result (handleSourceFlag
            {| Flags := <["registry" := pflag.stringSliceValue ["url|q|sec"]]>
                          flagDefinitions |} std)
  = Val (["url|q|sec"], false, None).
Proof. reflexivity. Qed.

(** C8: the resolver is a function of the two flag values alone.  Two calls
    on commands whose [sources] and [registry] flags agree return the same
    specifiers, mode and error, whatever the other flags and the logger are;
    a call leaves the logger as it found it and does nothing but read flags. *)
Theorem handleSourceFlag_deterministic (cmd1 cmd2 : Command)
    (lg1 lg2 : Logger) :
  Flags cmd1 !! "sources" = Flags cmd2 !! "sources" ->
  Flags cmd1 !! "registry" = Flags cmd2 !! "registry" ->
  result (handleSourceFlag cmd1 lg1) = result (handleSourceFlag cmd2 lg2)
  /\ logger (handleSourceFlag cmd1 lg1) = lg1
  /\ forallb is_flag_read (trace (handleSourceFlag cmd1 lg1)) = true.
Proof.
  intros Hs Hr.
  apply GetStringSlice_same in Hs. apply GetStringSlice_same in Hr.
  destruct (handleSourceFlag_cases cmd1 lg1)
    as [(l & e & H1 & ->) | [(l & H1 & Hl & ->) | (m & e & H1 & H2 & ->)]].
  - rewrite Hs in H1.
    by rewrite (handleSourceFlag_sources_err cmd2 lg2 l e H1).
  - rewrite Hs in H1.
    by rewrite (handleSourceFlag_sources_nonempty cmd2 lg2 l H1 Hl).
  - rewrite Hs in H1. rewrite Hr in H2.
    by rewrite (handleSourceFlag_sources_empty cmd2 lg2 m e H1 H2).
Qed.

Lemma handleSourceFlag_deterministic_witness :
  result (handleSourceFlag {| Flags := flagDefinitions |} std)
  = result (handleSourceFlag
              {| Flags := <["port" := pflag.stringValue "8080"]> flagDefinitions |}
              {| level := DebugLevel; hooks := [] |})
  /\ logger (handleSourceFlag {| Flags := flagDefinitions |} std) = std
  /\ forallb is_flag_read
       (trace (handleSourceFlag {| Flags := flagDefinitions |} std)) = true.
Proof.
  apply (handleSourceFlag_deterministic
           {| Flags := flagDefinitions |}
           {| Flags := <["port" := pflag.stringValue "8080"]> flagDefinitions |}
           std {| level := DebugLevel; hooks := [] |});
    reflexivity.
Defined.

(** C9: with a non-empty legacy list the call consists of the one read of
    [sources]: [registry] is not read, so nothing that is wrong with that
    flag can turn into an error.  A read of [registry] happens only after
    [sources] was read without error and found empty. *)
Theorem registry_read_only_if_legacy_empty (cmd : Command) (lg : Logger) :
  (forall L, pflag.GetStringSlice (Flags cmd) "sources" = (L, None) ->
     L <> [] ->
     handleSourceFlag cmd lg = (Val (L, true, None), lg, [EvGetFlag "sources"]))
  /\ (EvGetFlag "registry" ∈ trace (handleSourceFlag cmd lg) ->
      pflag.GetStringSlice (Flags cmd) "sources" = ([], None)).
Proof.
  split.
  - intros L HL Hne. by apply handleSourceFlag_sources_nonempty.
  - destruct (handleSourceFlag_cases cmd lg)
      as [(l & e & H1 & ->) | [(l & H1 & Hl & ->) | (m & e & H1 & H2 & ->)]];
      unfold trace; simpl; intros Hin; [| |done];
      apply list_elem_of_singleton in Hin; discriminate.
Qed.

(** A [registry] flag of the wrong type goes unnoticed behind a non-empty
    legacy list, and is reported once the legacy list is empty. *)
Example broken_registry_unnoticed :
  handleSourceFlag
    {| Flags := <["sources" := pflag.stringSliceValue ["ns/a"]]>
                (<["registry" := pflag.stringValue "url|q|sec"]> flagDefinitions) |}
    std
  = (Val (["ns/a"], true, None), std, [EvGetFlag "sources"]).
Proof. reflexivity. Qed.

Example broken_registry_reported :
  handleSourceFlag
    {| Flags := <["registry" := pflag.stringValue "url|q|sec"]> flagDefinitions |}
    std
  = (Val ([], false,
          Some "trying to get stringSlice value of flag of type string"),
     std, [EvGetFlag "sources"; EvGetFlag "registry"]).
Proof. reflexivity. Qed.





(** ** The bootstrap *)

Arguments pflag.GetString : simpl never.
Arguments pflag.GetStringSlice : simpl never.
Arguments pflag.GetBool : simpl never.
Arguments pflag.Parse : simpl never.
Arguments IsLevelEnabled : simpl never.
Arguments fired : simpl never.
Arguments MarkHidden : simpl never.

(** A run is followed call by call: the next call whose outcome is not
    known is the innermost scrutinee of the first pending [match]. *)
Ltac pending x :=
  lazymatch x with
  | context [match ?y with _ => _ end] => pending y
  | _ => x
  end.

Ltac next_call :=
  lazymatch goal with
  | |- context [match ?x with _ => _ end] =>
      let y := pending x in destruct y eqn:?
  end.

(** A level check on a logger whose level is known is evaluated instead. *)
Ltac known_level :=
  match goal with
  | |- context [IsLevelEnabled ?lg ?l] =>
      let v := eval vm_compute in (IsLevelEnabled lg l) in
      lazymatch v with
      | true => change (IsLevelEnabled lg l) with true
      | false => change (IsLevelEnabled lg l) with false
      end
  end.

Ltac unfold_run :=
  unfold Execute, PreRunE, runCmdFunc, handleSourceFlag,
    AddDefaultWriterHooks, NewLoader, Load, Listen, Serve, Fatalf, Panic,
    Info, log, GetString, GetStringSlice, GetBool,
    emit, halt, configure, mbind, M_bind, mret, M_ret.

Ltac follow :=
  simpl; repeat (first [known_level | next_call]; simpl);
  unfold result, logger, trace; simpl.

(** Every run of [runCmdFunc]. *)
Ltac all_runs := unfold_run; follow.

(** The cases of a membership in a trace that is known event by event. *)
Ltac members H :=
  apply list_elem_of_In in H; simpl in H;
  repeat match type of H with _ \/ _ => destruct H as [H|H] end;
  try discriminate H; try contradiction H.

Lemma preceded_split p q pre : forall seen e post,
  preceded p q seen (pre ++ e :: post) = true -> q e = true ->
  seen || existsb p pre = true.
Proof.
  induction pre as [|a pre IH]; simpl; intros seen e post H Hq.
  - rewrite Hq in H. apply andb_prop in H as [-> _]. done.
  - apply andb_prop in H as [_ H]. specialize (IH _ _ _ H Hq).
    by rewrite <- orb_assoc in IH.
Qed.

Lemma preceded_before p q t : preceded p q false t = true -> before p q t.
Proof.
  intros H pre e post -> Hq. by apply (preceded_split p q pre false e post).
Qed.


Lemma MarkHidden_debug : MarkHidden flagDefinitions "debug" = None.
Proof. reflexivity. Qed.


(** The fourth scenario of the specification: the load call fails. *)
Example failed_load_run :
  runCmdFunc failing_load {| Flags := flagDefinitions |} std
  = (Stop (Exit 1),
     {| level := InfoLevel;
        hooks := [{| Writer := "/dev/termination-log";
                     LogLevels := [FatalLevel] |}] |},
     [EvGetFlag "termination-log"; EvAddHooks "/dev/termination-log" None;
      EvGetFlag "kubeconfig"; EvGetFlag "port";
      EvGetFlag "sources"; EvGetFlag "registry";
      EvGetFlag "packages"; EvGetFlag "database";
      EvNewLoader "" false None;
      EvLoad "bundles.db" [] "" (Some "network unreachable");
      EvLog FatalLevel
        "error loading manifest from remote registry - network unreachable"
        ["/dev/termination-log"]]).
Proof. reflexivity. Qed.

(** On the flags of [main], [runCmdFunc] hands back an error only when the
    termination log could not be set up: no flag read of its own fails. *)
Lemma runCmdFunc_returns_setup_error w args g lg e :
  pflag.Parse flagDefinitions args = (g, None) ->
  result (runCmdFunc w {| Flags := g |} lg) = Val (Some e) ->
  existsb hooks_failed (trace (runCmdFunc w {| Flags := g |} lg)) = true.
Proof.
  intros Hp.
  destruct (parsed_string args g None "termination-log" _ eq_refl Hp) as [? E1].
  destruct (parsed_string args g None "kubeconfig" _ eq_refl Hp) as [? E2].
  destruct (parsed_string args g None "port" _ eq_refl Hp) as [? E3].
  destruct (parsed_string args g None "packages" _ eq_refl Hp) as [? E4].
  destruct (parsed_string args g None "database" _ eq_refl Hp) as [? E5].
  destruct (parsed_stringSlice args g None "sources" _ eq_refl Hp) as [? E6].
  destruct (parsed_stringSlice args g None "registry" _ eq_refl Hp) as [? E7].
  unfold_run. simpl. rewrite E1, E2, E3, E4, E5, E6, E7.
  follow; first [discriminate | reflexivity].
Qed.

(** C3: in every run of [runCmdFunc], the listener is bound and the services
    are registered only after a load call that returned without error; and
    when the construction of the loader or the load call fails, the run ends
    in [os.Exit(1)] without a listener or a server. *)
Theorem no_exposure_before_load (w : World) (cmd : Command) (lg : Logger) :
  before load_succeeded exposes (trace (runCmdFunc w cmd lg))
  /\ (existsb loader_failed (trace (runCmdFunc w cmd lg)) = true ->
      result (runCmdFunc w cmd lg) = Stop (Exit 1)
      /\ existsb exposes (trace (runCmdFunc w cmd lg)) = false).
Proof.
  split.
  - apply preceded_before. all_runs; reflexivity.
  - all_runs; first [discriminate | intros _; split; reflexivity].
Qed.




(** ** The whole process *)

(** Every run of [main], from the standard logger. *)
Ltac all_processes :=
  unfold main; rewrite MarkHidden_debug; unfold_run; follow.



(** * Further properties of the program *)

(** ** What the collaborators are given *)

Lemma GetString_same f1 f2 name :
  f1 !! name = f2 !! name ->
  pflag.GetString f1 name = pflag.GetString f2 name.
Proof. intros H. unfold pflag.GetString. by rewrite H. Qed.

(** X1: the loader is constructed on the value of the [kubeconfig] flag and
    the mode the resolver returned; the load call gets the value of the
    [database] flag, the specifiers the resolver returned and the value of
    the [packages] flag, all unchanged, on a loader that was constructed
    without error. *)
Theorem loader_receives_flags (w : World) (cmd : Command) (lg : Logger) :
  (forall kubeconfig legacy err,
     EvNewLoader kubeconfig legacy err ∈ trace (runCmdFunc w cmd lg) ->
     pflag.GetString (Flags cmd) "kubeconfig" = (kubeconfig, None)
     /\ exists specifiers,
          result (handleSourceFlag cmd lg) = Val (specifiers, legacy, None))
  /\ (forall dbName sources packages err,
        EvLoad dbName sources packages err ∈ trace (runCmdFunc w cmd lg) ->
        pflag.GetString (Flags cmd) "database" = (dbName, None)
        /\ pflag.GetString (Flags cmd) "packages" = (packages, None)
        /\ exists kubeconfig legacy,
             result (handleSourceFlag cmd lg) = Val (sources, legacy, None)
             /\ EvNewLoader kubeconfig legacy None
                  ∈ trace (runCmdFunc w cmd lg)).
Proof.
  split.
  - intros kubeconfig legacy err. all_runs; intros Hin; members Hin;
      simplify_eq; (split; [reflexivity|]); by eexists.
  - intros dbName sources packages err. all_runs; intros Hin; members Hin;
      simplify_eq; (split; [reflexivity|]); (split; [reflexivity|]);
      do 2 eexists; (split; [reflexivity|]);
      repeat first [apply list_elem_of_here | apply list_elem_of_further].
Qed.

(** X2: the listener is bound on the TCP address made of a colon and the
    value of the [port] flag, and it is this listener that [Serve] is called
    on. *)
Theorem listener_on_port_flag (w : World) (cmd : Command) (lg : Logger) :
  (forall network address err,
     EvListen network address err ∈ trace (runCmdFunc w cmd lg) ->
     network = "tcp"
     /\ exists port, pflag.GetString (Flags cmd) "port" = (port, None)
                     /\ address = ":" +:+ port)
  /\ (forall address,
        EvServe address ∈ trace (runCmdFunc w cmd lg) ->
        EvListen "tcp" address None ∈ trace (runCmdFunc w cmd lg)).
Proof.
  split.
  - intros network address err. all_runs; intros Hin; members Hin;
      simplify_eq; (split; [reflexivity|]); by eexists.
  - intros address. all_runs; intros Hin; members Hin; simplify_eq;
      repeat first [apply list_elem_of_here | apply list_elem_of_further].
Qed.



(** ** Errors that are handed back *)

(** X4: when [runCmdFunc] hands back an error, it has only read flags and
    set up the termination log: no loader was constructed, nothing was
    loaded, no listener bound and no server made. The error is that of its
    last step: the read of a flag, or the setup of the termination log. *)
Theorem returned_error_precedes_loader (w : World) (cmd : Command)
    (lg : Logger) (e : error) :
  result (runCmdFunc w cmd lg) = Val (Some e) ->
  forallb setup_step (trace (runCmdFunc w cmd lg)) = true
  /\ ((exists path,
         last (trace (runCmdFunc w cmd lg)) = Some (EvAddHooks path (Some e)))
      \/ (exists name,
            last (trace (runCmdFunc w cmd lg)) = Some (EvGetFlag name)
            /\ ((pflag.GetString (Flags cmd) name).2 = Some e
                \/ (pflag.GetStringSlice (Flags cmd) name).2 = Some e))).
Proof.
  all_runs; intros [= <-]; (split; [reflexivity|]);
    first
      [ left; eexists; reflexivity
      | right; eexists; split; [reflexivity|];
        first [ left; match goal with H : _ = _ |- _ => by rewrite H end
              | right; match goal with H : _ = _ |- _ => by rewrite H end ] ].
Qed.

Lemma returned_error_precedes_loader_witness :
  forallb setup_step
    (trace (runCmdFunc fair_weather
              portless std)) = true
  /\ ((exists path,
         last (trace (runCmdFunc fair_weather
                        portless std))
         = Some (EvAddHooks path
                   (Some "flag accessed but not defined: port")))
      \/ (exists name,
            last (trace (runCmdFunc fair_weather
                           portless std))
            = Some (EvGetFlag name)
            /\ ((pflag.GetString (Flags portless) name).2
                = Some "flag accessed but not defined: port"
                \/ (pflag.GetStringSlice (Flags portless) name).2
                   = Some "flag accessed but not defined: port"))).
Proof.
  apply (returned_error_precedes_loader fair_weather
           portless std
           "flag accessed but not defined: port").
  reflexivity.
Defined.

(** X5: on an error the resolver hands back no specifiers and the modern
    mode: the named results are still at their zero values. *)
Theorem handleSourceFlag_zero_on_error (cmd : Command) (lg : Logger)
    (specifiers : list string) (legacy : bool) (e : error) :
  result (handleSourceFlag cmd lg) = Val (specifiers, legacy, Some e) ->
  specifiers = [] /\ legacy = false.
Proof.
  destruct (handleSourceFlag_cases cmd lg)
    as [(l & e' & H1 & ->) | [(l & H1 & Hl & ->) | (m & e' & H1 & H2 & ->)]];
    unfold result; simpl; intros [= <- <- ?]; by subst.
Qed.

Lemma handleSourceFlag_zero_on_error_witness :
  ([] : list string) = [] /\ false = false.
Proof.
  apply (handleSourceFlag_zero_on_error
           {| Flags := <["registry" := pflag.stringValue "url|q|sec"]>
                         flagDefinitions |}
           std [] false
           "trying to get stringSlice value of flag of type string").
  reflexivity.
Defined.

(** ** The ends of the process *)


(** ** The debug flag *)

(** X7: [PreRunE] never fails and never ends the process. It raises the
    level of the logger to debug when the [debug] flag is set, and otherwise
    leaves the logger as it is, also when the flag cannot be read: the error
    of the read is dropped. The hooks are not touched. *)
Theorem PreRunE_never_fails (cmd : Command) (lg : Logger) :
  result (PreRunE cmd lg) = Val None
  /\ hooks (logger (PreRunE cmd lg)) = hooks lg
  /\ (Flags cmd !! "debug" = Some (pflag.boolValue true) ->
      level (logger (PreRunE cmd lg)) = DebugLevel)
  /\ (Flags cmd !! "debug" <> Some (pflag.boolValue true) ->
      logger (PreRunE cmd lg) = lg).
Proof.
  unfold PreRunE, GetBool, pflag.GetBool, configure, emit, mbind, M_bind,
    mret, M_ret, result, logger.
  destruct (Flags cmd !! "debug") as [[[]| |]|]; simpl;
    repeat split; try done; by destruct lg.
Qed.

(** ** What the logger cannot change *)


(** X9: the termination log comes first: [runCmdFunc] reads no flag other
    than [termination-log] before the hooks have been set up without error. *)
Theorem termination_log_set_up_first (w : World) (cmd : Command)
    (lg : Logger) :
  before hooks_installed read_after_setup (trace (runCmdFunc w cmd lg)).
Proof. apply preceded_before. all_runs; reflexivity. Qed.

(** ** Flags that are not read *)

(** X10: [runCmdFunc] depends on the command through the seven flags it
    reads only: on two commands that agree on them, the runs are the same. *)
Theorem runCmdFunc_reads_only_its_flags (w : World) (cmd1 cmd2 : Command)
    (lg : Logger) :
  (forall name, name ∈ used_flags -> Flags cmd1 !! name = Flags cmd2 !! name) ->
  runCmdFunc w cmd1 lg = runCmdFunc w cmd2 lg.
Proof.
  intros H.
  assert (Hs : forall name, name ∈ used_flags ->
            pflag.GetString (Flags cmd1) name = pflag.GetString (Flags cmd2) name)
    by (intros; by apply GetString_same, H).
  assert (Hl : forall name, name ∈ used_flags ->
            pflag.GetStringSlice (Flags cmd1) name
            = pflag.GetStringSlice (Flags cmd2) name)
    by (intros; by apply GetStringSlice_same, H).
  unfold_run.
  rewrite (Hs "termination-log"), (Hs "kubeconfig"), (Hs "port"),
    (Hs "packages"), (Hs "database"), (Hl "sources"), (Hl "registry");
    [reflexivity|unfold used_flags; set_solver..].
Qed.

Lemma runCmdFunc_reads_only_its_flags_witness :
  runCmdFunc fair_weather bare std
  = runCmdFunc fair_weather
      {| Flags := <["debug" := pflag.boolValue true]> flagDefinitions |} std.
Proof.
  apply (runCmdFunc_reads_only_its_flags fair_weather bare
           {| Flags := <["debug" := pflag.boolValue true]> flagDefinitions |}
           std).
  intros name Hin. unfold used_flags in Hin. members Hin; by subst.
Defined.

(** ** Progress *)



(** ** Diagnostics *)

(** X12: the fatal diagnostic is the last thing the process does, and it
    quotes the error of the collaborator that failed, behind the words that
    tell which one it was. *)
Theorem diagnostics_quote_the_error (w : World)
    (args : list (string * pflag.Value)) :
  (forall kubeconfig legacy e,
     EvNewLoader kubeconfig legacy (Some e) ∈ trace (main w args std) ->
     exists written,
       last (trace (main w args std))
       = Some (EvLog FatalLevel ("error initializing - " +:+ e) written))
  /\ (forall dbName sources packages e,
        EvLoad dbName sources packages (Some e) ∈ trace (main w args std) ->
        exists written,
          last (trace (main w args std))
          = Some (EvLog FatalLevel
                    ("error loading manifest from remote registry - " +:+ e)
                    written))
  /\ (forall network address e,
        EvListen network address (Some e) ∈ trace (main w args std) ->
        exists written,
          last (trace (main w args std))
          = Some (EvLog FatalLevel ("failed to listen: " +:+ e) written))
  /\ (forall address e,
        EvServe address ∈ trace (main w args std) ->
        serve w address = Returns (Some e) ->
        exists written,
          last (trace (main w args std))
          = Some (EvLog FatalLevel ("failed to serve: " +:+ e) written)).
Proof.
  split; [|split; [|split]].
  - intros kubeconfig legacy e. all_processes; intros Hin; members Hin;
      simplify_eq; by eexists.
  - intros dbName sources packages e. all_processes; intros Hin; members Hin;
      simplify_eq; by eexists.
  - intros network address e. all_processes; intros Hin; members Hin;
      simplify_eq; by eexists.
  - intros address e. all_processes; intros Hin Hs; members Hin;
      simplify_eq;
      first
        [ congruence
        | match goal with
          | H : serve _ _ = Returns (Some ?e0) |- _ =>
              assert (e0 = e) by congruence; subst; by eexists
          end ].
Qed.
